(** * Greeting utility: translation table, template registry, configuration
      validation and the renderer

    A shallow embedding of [src/config/i18n.py], [src/config/templates.py]
    and [src/config/validation.py].  Python [str] values are Rocq strings
    holding the UTF-8 bytes of the source literals; a [dict] with string keys
    is a [gmap string _]; a [set] of strings is a [gset string]; a raised
    exception is the [Raise] case of [Result].  The configuration record
    (src/config/settings.py) and the renderer (src/main.py) are not among the
    sources; their definitions follow the specification and say so. *)

From stdpp Require Import base option list strings pretty gmap sets.

Open Scope string_scope.

(** [errors.append(x)] is written [errors ++ₗ [x]]; a plain [++] joins
    strings. *)
Notation "l ++ₗ k" := (@app string l k) (at level 60, right associativity, only parsing).

(** ** Python values *)

(** [class Language(str, Enum)], i18n.py. *)
Inductive Language := EN | ES | FR | DE | JA.

(** [class LogLevel(str, Enum)], validation.py. *)
Inductive LogLevel := DEBUG | INFO | WARNING | ERROR | CRITICAL.

(** [class TemplateCategory(enum.Enum)], templates.py. *)
Inductive TemplateCategory := FORMAL | CASUAL | FUNNY | BUSINESS.

#[global] Instance Language_eq_dec : EqDecision Language.
Proof. solve_decision. Defined.
#[global] Instance LogLevel_eq_dec : EqDecision LogLevel.
Proof. solve_decision. Defined.
#[global] Instance TemplateCategory_eq_dec : EqDecision TemplateCategory.
Proof. solve_decision. Defined.

Definition Language_name (l : Language) : string :=
  match l with EN => "EN" | ES => "ES" | FR => "FR" | DE => "DE" | JA => "JA" end.

(** The [str] value of a member: [Language.ES == "es"]. *)
Definition Language_value (l : Language) : string :=
  match l with EN => "en" | ES => "es" | FR => "fr" | DE => "de" | JA => "ja" end.

(** Names and values of [LogLevel] coincide. *)
Definition LogLevel_name (l : LogLevel) : string :=
  match l with
  | DEBUG => "DEBUG" | INFO => "INFO" | WARNING => "WARNING"
  | ERROR => "ERROR" | CRITICAL => "CRITICAL"
  end.

Definition TemplateCategory_name (c : TemplateCategory) : string :=
  match c with
  | FORMAL => "FORMAL" | CASUAL => "CASUAL" | FUNNY => "FUNNY" | BUSINESS => "BUSINESS"
  end.

Definition all_languages : list Language := [EN; ES; FR; DE; JA].
Definition all_log_levels : list LogLevel := [DEBUG; INFO; WARNING; ERROR; CRITICAL].

(** The dynamically typed values that reach the functions below.  [PyOther]
    is an object of any other class: it carries the class name, its [str()]
    text and whether it is hashable (a [list], [dict] or [set] is not). *)
Inductive PyVal :=
  | PyNone
  | PyBool (b : bool)
  | PyInt (n : Z)
  | PyStr (s : string)
  | PyLanguage (l : Language)
  | PyLogLevel (l : LogLevel)
  | PyCategory (c : TemplateCategory)
  | PyOther (cls text : string) (hashable : bool).

(** The text of a value when it is an instance of [str]; members of the two
    [str]-mixin enumerations are. *)
Definition as_str (v : PyVal) : option string :=
  match v with
  | PyStr s => Some s
  | PyLanguage l => Some (Language_value l)
  | PyLogLevel l => Some (LogLevel_name l)
  | _ => None
  end.

Definition py_hashable (v : PyVal) : bool :=
  match v with
  | PyOther _ _ h => h
  | _ => true
  end.

Definition py_class_name (v : PyVal) : string :=
  match v with
  | PyNone => "NoneType"
  | PyBool _ => "bool"
  | PyInt _ => "int"
  | PyStr _ => "str"
  | PyLanguage _ => "Language"
  | PyLogLevel _ => "LogLevel"
  | PyCategory _ => "TemplateCategory"
  | PyOther cls _ _ => cls
  end.

(** [repr(type(v))]. *)
Definition py_type_repr (v : PyVal) : string :=
  match v with
  | PyLanguage _ | PyLogLevel _ | PyCategory _ => "<enum '" ++ py_class_name v ++ "'>"
  | _ => "<class '" ++ py_class_name v ++ "'>"
  end.

(** The text an f-string inserts for [{v}] (Python 3.12: an enumeration
    member prints as [Class.NAME]). *)
Definition py_str (v : PyVal) : string :=
  match v with
  | PyNone => "None"
  | PyBool true => "True"
  | PyBool false => "False"
  | PyInt n => pretty n
  | PyStr s => s
  | PyLanguage l => "Language." ++ Language_name l
  | PyLogLevel l => "LogLevel." ++ LogLevel_name l
  | PyCategory c => "TemplateCategory." ++ TemplateCategory_name c
  | PyOther _ text _ => text
  end.

(** ** Exceptions and results *)

(** The exceptions of the program.  [ValidationError] is the class of
    validation.py with its [errors] dictionary; the specification calls the
    lookup failures UnsupportedLanguageError and InvalidCategoryError (both
    [ValueError] in the source) and TemplateNotFoundError ([KeyError]).
    [EmptyNameError] is the renderer's failure on the empty name. *)
Inductive PyExc :=
  | ValueError (msg : string)
  | KeyError (key : string)
  | TypeError (msg : string)
  | ValidationError (errors : gmap string string)
  | EmptyNameError.

Inductive Result (A : Type) :=
  | Return (a : A)
  | Raise (e : PyExc).
Arguments Return {A} a.
Arguments Raise {A} e.

#[global] Instance Result_ret : MRet Result := λ A a, Return a.
#[global] Instance Result_bind : MBind Result := λ A B f r,
  match r with
  | Return a => f a
  | Raise e => Raise e
  end.

(** [v in d] for a dictionary [d] with [str] keys: the key is hashed first,
    which raises [TypeError] for an unhashable object; a value that is not a
    [str] equals no key. *)
Definition str_key_in {V} (v : PyVal) (d : gmap string V) : bool :=
  match as_str v with
  | Some s => bool_decide (is_Some (d !! s))
  | None => false
  end.

Definition py_in {V} (v : PyVal) (d : gmap string V) : Result bool :=
  if py_hashable v then Return (str_key_in v d)
  else Raise (TypeError ("unhashable type: '" ++ py_class_name v ++ "'")).

(** ** i18n.py *)

Record Translations := {
  greeting_prefix : string;
  greeting_suffix : string;
  error_messages : gmap string string
}.

Definition _TRANSLATIONS : gmap string Translations :=
  list_to_map [
    (Language_value EN,
     {| greeting_prefix := "Hello";
        greeting_suffix := "!";
        error_messages := list_to_map [
          ("invalid_name", "Name cannot be empty");
          ("invalid_template", "Invalid template style");
          ("invalid_language", "Unsupported language") ] |});
    (Language_value ES,
     {| greeting_prefix := "¡Hola";
        greeting_suffix := "!";
        error_messages := list_to_map [
          ("invalid_name", "El nombre no puede estar vacío");
          ("invalid_template", "Estilo de plantilla inválido");
          ("invalid_language", "Idioma no soportado") ] |});
    (Language_value FR,
     {| greeting_prefix := "Bonjour";
        greeting_suffix := "!";
        error_messages := list_to_map [
          ("invalid_name", "Le nom ne peut pas être vide");
          ("invalid_template", "Style de modèle invalide");
          ("invalid_language", "Langue non supportée") ] |});
    (Language_value DE,
     {| greeting_prefix := "Hallo";
        greeting_suffix := "!";
        error_messages := list_to_map [
          ("invalid_name", "Name darf nicht leer sein");
          ("invalid_template", "Ungültiger Vorlagenstil");
          ("invalid_language", "Nicht unterstützte Sprache") ] |});
    (Language_value JA,
     {| greeting_prefix := "こんにちは";
        greeting_suffix := "！";
        error_messages := list_to_map [
          ("invalid_name", "名前を入力してください");
          ("invalid_template", "無効なテンプレートスタイル");
          ("invalid_language", "サポートされていない言語") ] |})
  ].

(** [get_translation(language)].  The argument is whatever value the caller
    passes: [language not in _TRANSLATIONS] hashes it, which raises
    [TypeError] for an unhashable object; a member of [Language] and the text
    of its code hash and compare alike, so both find the record.  The
    subscript [_TRANSLATIONS[language]] follows a successful membership
    test. *)
Definition get_translation (language : PyVal) : Result Translations :=
  found ← py_in language _TRANSLATIONS;
  if negb found
  then Raise (ValueError ("Language " ++ py_str language ++ " is not supported"))
  else
    match as_str language ≫= λ s, _TRANSLATIONS !! s with
    | Some translations => Return translations
    | None => Raise (KeyError (py_str language))
    end.

(** [translate_error(error_key, language)]:
    [translations.error_messages.get(error_key, error_key)]. *)
Definition translate_error (error_key : string) (language : PyVal) : Result string :=
  translations ← get_translation language;
  mret (default error_key (error_messages translations !! error_key)).

(** The member of [Language] whose value is the text [s]. *)
Definition Language_of_string (s : string) : option Language :=
  list_find (λ l, Language_value l = s) all_languages ≫= λ p, Some p.2.

(** [Language(v)]: the member whose value equals [v].  [None] stands for the
    [ValueError] the enumeration raises on every other value (an unhashable
    [v] is compared with every member and found in none); the text of that
    exception is the interpreter's and no function here reads it. *)
Definition Language_call (v : PyVal) : option Language :=
  as_str v ≫= Language_of_string.

(** ** templates.py *)

Record TemplateInfo := {
  pattern : string;
  category : TemplateCategory;
  tags : gset string;
  description : string
}.

(** [TemplateManager._templates]. *)
Definition _templates : gmap string TemplateInfo :=
  list_to_map [
    ("default",
     {| pattern := "Hello, {name}! {message}";
        category := CASUAL;
        tags := {[ "simple"; "general" ]};
        description := "A simple, casual greeting" |});
    ("formal",
     {| pattern := "Dear {name}, {message}";
        category := FORMAL;
        tags := {[ "polite"; "business" ]};
        description := "A formal, professional greeting" |});
    ("friendly",
     {| pattern := "Hey {name}! {message}";
        category := CASUAL;
        tags := {[ "informal"; "friendly" ]};
        description := "A friendly, informal greeting" |});
    ("enthusiastic",
     {| pattern := "Hi {name}! {message} 🎉";
        category := FUNNY;
        tags := {[ "fun"; "emoji" ]};
        description := "An enthusiastic greeting with emoji" |})
  ].

Definition list_templates : gmap string TemplateInfo := _templates.

(** [get_by_category(category)]: [isinstance(category, TemplateCategory)]
    guards the dictionary comprehension. *)
Definition get_by_category (category0 : PyVal) : Result (gmap string TemplateInfo) :=
  match category0 with
  | PyCategory c =>
      Return (filter (λ item : string * TemplateInfo, category item.2 = c) _templates)
  | _ => Raise (ValueError ("Invalid category type: " ++ py_type_repr category0))
  end.

(** [search_by_tags(tags)]: keeps the items with [tags & info.tags] truthy,
    that is, a non-empty intersection. *)
Definition search_by_tags (tags0 : gset string) : gmap string TemplateInfo :=
  filter (λ item : string * TemplateInfo, tags0 ∩ tags item.2 ≠ ∅) _templates.

(** [cls._templates[name]]: a missing key raises [KeyError]. *)
Definition get_template_info (name : string) : Result TemplateInfo :=
  match _templates !! name with
  | Some info => Return info
  | None => Raise (KeyError name)
  end.

Definition get_template (name : string) : Result string :=
  info ← get_template_info name;
  mret (pattern info).

(** ** validation.py *)

(** [LogLevel.__members__]: the mapping from member name to member. *)
Definition LogLevel_members : gmap string LogLevel :=
  list_to_map ((λ l, (LogLevel_name l, l)) <$> all_log_levels).

(** An object given to [validate_config] is the finite map of its
    attributes: [hasattr(config, a)] holds when the lookup of [a] is [Some],
    and [getattr(config, a, d)] is the lookup with a default. *)
Definition getattr (config : gmap string PyVal) (a : string) (d : PyVal) : PyVal :=
  default d (config !! a).

(** [not hasattr(config, a) or config.a not in d]. *)
Definition missing_or_not_in {V} (config : gmap string PyVal) (a : string)
    (d : gmap string V) : Result bool :=
  match config !! a with
  | None => Return true
  | Some v => found ← py_in v d; mret (negb found)
  end.

(** [validate_config(config)]: three blocks, each appending to [errors]. *)
Definition validate_config (config : gmap string PyVal) : Result (list string) :=
  let errors : list string := [] in
  (* Validate log level *)
  bad ← missing_or_not_in config "log_level" LogLevel_members;
  let errors :=
    if bad : bool
    then errors ++ₗ ["Invalid log level: " ++ py_str (getattr config "log_level" PyNone)]
    else errors in
  (* Validate template style *)
  bad ← missing_or_not_in config "template_style" list_templates;
  let errors :=
    if bad : bool
    then errors ++ₗ ["Invalid template style: " ++ py_str (getattr config "template_style" PyNone)]
    else errors in
  (* Validate language *)
  errors ←
    match config !! "language" with
    | None => Return (errors ++ₗ ["Language not specified"])
    | Some v =>
        match v with
        | PyLanguage _ => Return errors
        | _ =>
            (* try: Language(config.language)  except ValueError: ... *)
            match Language_call v with
            | Some _ => Return errors
            | None => Return (errors ++ₗ ["Invalid language: " ++ py_str v])
            end
        end
    end;
  mret errors.

(** What each block of [validate_config] appends when no exception
    interrupts it; the three lists state the accumulation below. *)
Definition log_level_errors (config : gmap string PyVal) : list string :=
  match config !! "log_level" with
  | None => ["Invalid log level: None"]
  | Some v => if str_key_in v LogLevel_members then []
              else ["Invalid log level: " ++ py_str v]
  end.

Definition template_style_errors (config : gmap string PyVal) : list string :=
  match config !! "template_style" with
  | None => ["Invalid template style: None"]
  | Some v => if str_key_in v list_templates then []
              else ["Invalid template style: " ++ py_str v]
  end.

Definition language_errors (config : gmap string PyVal) : list string :=
  match config !! "language" with
  | None => ["Language not specified"]
  | Some (PyLanguage _) => []
  | Some v =>
      match as_str v ≫= Language_of_string with
      | Some _ => []
      | None => ["Invalid language: " ++ py_str v]
      end
  end.

(** ** The configuration record *)

(** The five entries of a configuration as they arrive: the arguments of the
    constructor, and equally the flat key-value record of a persisted
    configuration (keys [debug], [log_level], [template_style], [language],
    [custom_message], the last one [None] when absent or null). *)
Record ConfigRecord := {
  rec_debug : PyVal;
  rec_log_level : PyVal;
  rec_template_style : PyVal;
  rec_language : PyVal;
  rec_custom_message : PyVal
}.

(** Modelled from the spec: the Configuration of the data model ([AppConfig]
    of src/config/settings.py, which is not among the sources), with its
    fields typed as the specification types them. *)
Record AppConfig := {
  debug : bool;
  log_level : LogLevel;
  template_style : string;
  language : Language;
  custom_message : option string
}.


(** Modelled from the spec: the four checks of configuration construction
    ([AppConfig] of src/config/settings.py, which is not among the sources).
    Each check gives the accepted field value, or [None] when it fails.
    1. [log_level] is a member of the closed log-level set. *)
Definition check_log_level (v : PyVal) : option LogLevel :=
  as_str v ≫= λ s, LogLevel_members !! s.

(** Modelled from the spec: settings.py is missing; check 2, [template_style]
    names an entry of the template registry. *)
Definition check_template_style (v : PyVal) : option string :=
  as_str v ≫= λ s, if bool_decide (is_Some (list_templates !! s)) then Some s else None.

(** Modelled from the spec: settings.py is missing; check 3, [language] is a
    value of [Language] or a text convertible to one. *)
Definition check_language (v : PyVal) : option Language :=
  match v with
  | PyLanguage l => Some l
  | _ => as_str v ≫= Language_of_string
  end.

(** Modelled from the spec: settings.py is missing; check 4, [debug] is
    boolean-typed. *)
Definition check_debug (v : PyVal) : option bool :=
  match v with
  | PyBool b => Some b
  | _ => None
  end.

(** Modelled from the spec: settings.py is missing; check 4, second half,
    [custom_message] is text-typed when present. *)
Definition check_custom_message (v : PyVal) : option (option string) :=
  match v with
  | PyNone => Some None
  | _ => Some <$> as_str v
  end.

(** Modelled from the spec: settings.py is missing; the entry one failing
    check contributes to the mapping from field name to message. *)
Definition field_error {A} (field : string) (checked : option A) (msg : string)
    : gmap string string :=
  match checked with
  | Some _ => ∅
  | None => {[ field := msg ]}
  end.

(** Modelled from the spec: settings.py is missing; the mapping from field
    name to message built by one pass over the four checks.  The texts of the
    first three are those of [validate_config]; the specification fixes no
    text for [debug] and [custom_message]. *)
Definition field_errors (r : ConfigRecord) : gmap string string :=
  field_error "log_level" (check_log_level (rec_log_level r))
    ("Invalid log level: " ++ py_str (rec_log_level r))
  ∪ field_error "template_style" (check_template_style (rec_template_style r))
    ("Invalid template style: " ++ py_str (rec_template_style r))
  ∪ field_error "language" (check_language (rec_language r))
    ("Invalid language: " ++ py_str (rec_language r))
  ∪ field_error "debug" (check_debug (rec_debug r))
    ("Invalid debug flag: " ++ py_str (rec_debug r))
  ∪ field_error "custom_message" (check_custom_message (rec_custom_message r))
    ("Invalid custom message: " ++ py_str (rec_custom_message r)).

(** Modelled from the spec: construction of a configuration (the constructor
    of [AppConfig] in src/config/settings.py is missing).  It succeeds when
    all checks pass and otherwise fails with the [ValidationError] that
    carries the whole mapping. *)
Definition AppConfig_init (r : ConfigRecord) : Result AppConfig :=
  match check_debug (rec_debug r), check_log_level (rec_log_level r),
        check_template_style (rec_template_style r), check_language (rec_language r),
        check_custom_message (rec_custom_message r) with
  | Some d, Some ll, Some ts, Some l, Some cm =>
      Return {| debug := d; log_level := ll; template_style := ts;
                language := l; custom_message := cm |}
  | _, _, _, _, _ => Raise (ValidationError (field_errors r))
  end.

(** Modelled from the spec: saving ([to_file] of the missing settings.py)
    writes the five keys, the language as its code and an absent message as
    null. *)
Definition save (config : AppConfig) : ConfigRecord :=
  {| rec_debug := PyBool (debug config);
     rec_log_level := PyStr (LogLevel_name (log_level config));
     rec_template_style := PyStr (template_style config);
     rec_language := PyStr (Language_value (language config));
     rec_custom_message := from_option PyStr PyNone (custom_message config) |}.

(** Modelled from the spec: loading ([from_file] of the missing settings.py)
    constructs the configuration from the record, validation included. *)
Definition load (r : ConfigRecord) : Result AppConfig := AppConfig_init r.

(** Modelled from the spec: the invariant of a Configuration (settings.py is
    missing).  Its style names an entry of the registry; the other fields
    are valid by their types. *)
Definition valid_config (config : AppConfig) : Prop :=
  is_Some (list_templates !! template_style config).

(** ** The renderer *)

(** [needle in s] on strings. *)
Fixpoint str_contains (needle s : string) : bool :=
  String.prefix needle s ||
  match s with
  | EmptyString => false
  | String _ rest => str_contains needle rest
  end.

(** Modelled from the spec: placeholder substitution of the renderer ([greet]
    of src/main.py, which is not among the sources).  One pass over the
    pattern replaces [{name}] and [{message}]; the inserted texts are not
    scanned again.  [skip] counts the characters of a placeholder still to be
    dropped. *)
Fixpoint substitute_from (skip : nat) (template name message : string) : string :=
  match template with
  | EmptyString => ""
  | String c rest =>
      match skip with
      | S k => substitute_from k rest name message
      | O =>
          if String.prefix "{name}" template
          then name ++ substitute_from 5 rest name message
          else if String.prefix "{message}" template
          then message ++ substitute_from 8 rest name message
          else String c (substitute_from 0 rest name message)
      end
  end.

(** Modelled from the spec: src/main.py is missing; the substitution of a
    whole pattern. *)
Definition substitute (template name message : string) : string :=
  substitute_from 0 template name message.

(** Modelled from the spec: the composition of a greeting from a translation
    record, [prefix + ", " + name + suffix + " " + message]. *)
Definition compose (translations : Translations) (name message : string) : string :=
  greeting_prefix translations ++ ", " ++ name ++ greeting_suffix translations
    ++ " " ++ message.

(** Modelled from the spec: the two productions of a greeting the
    specification names ([greet] of src/main.py is missing): composition from
    the translation record "or" substitution into the named template
    pattern.  The specification does not say which one a configuration
    selects, so the production is an argument of the model. *)
Inductive Production := Composition | Substitution.

Definition produce (production : Production) (translations : Translations)
    (template name message : string) : string :=
  match production with
  | Composition => compose translations name message
  | Substitution => substitute template name message
  end.

(** Modelled from the spec: [render(name, config)] ([greet] of the missing
    src/main.py).  The name is checked, the translation record and the
    template pattern are resolved, and the greeting is produced by one of
    the two productions.  The debug log line does not affect the result and
    is left out.  Neither production gives the text the repository's test
    expects for Japanese, and nothing below speaks of that language. *)
Definition render (production : Production) (name : string) (config : AppConfig)
    : Result string :=
  if bool_decide (name = "") then Raise EmptyNameError
  else
    translations ← get_translation (PyLanguage (language config));
    template ← get_template (template_style config);
    let message := default "" (custom_message config) in
    mret (produce production translations template name message).

(** * Properties *)

(** ** The enumerations and the two static tables *)

Lemma Language_of_string_value (l : Language) :
  Language_of_string (Language_value l) = Some l.
Proof. by destruct l. Qed.

Lemma Language_of_string_Some (s : string) (l : Language) :
  Language_of_string s = Some l → s = Language_value l.
Proof.
  unfold Language_of_string. intros H.
  destruct (list_find _ _) as [[i l']|] eqn:Hfind; [|done].
  apply list_find_Some in Hfind. destruct Hfind as (_ & <- & _).
  cbn in H. by simplify_eq.
Qed.

Lemma Language_of_string_None (s : string) :
  Language_of_string s = None ↔ ∀ l, s ≠ Language_value l.
Proof.
  split.
  - intros H l ->. by rewrite Language_of_string_value in H.
  - intros H. destruct (Language_of_string s) as [l|] eqn:Hl; [|done].
    apply Language_of_string_Some in Hl. by destruct (H l).
Qed.

Lemma LogLevel_members_name (l : LogLevel) :
  LogLevel_members !! LogLevel_name l = Some l.
Proof. by destruct l. Qed.

Lemma translations_lookup_None (s : string) :
  (∀ l, s ≠ Language_value l) → _TRANSLATIONS !! s = None.
Proof.
  intros H. unfold _TRANSLATIONS. apply not_elem_of_list_to_map_1. cbn.
  rewrite !elem_of_cons, elem_of_nil.
  intros [->|[->|[->|[->|[->|[]]]]]];
    [apply (H EN)|apply (H ES)|apply (H FR)|apply (H DE)|apply (H JA)]; done.
Qed.

Lemma translations_lookup_member (l : Language) :
  ∃ t, _TRANSLATIONS !! Language_value l = Some t
       ∧ dom (error_messages t)
         = {[ "invalid_name"; "invalid_template"; "invalid_language" ]}.
Proof.
  destruct l; (eexists; split; [reflexivity|]); cbn;
    rewrite !dom_insert_L, dom_empty_L; set_solver.
Qed.

(** The registry holds exactly the four built-in templates. *)
Lemma templates_entries (name : string) (info : TemplateInfo) :
  _templates !! name = Some info →
  (name, pattern info) ∈
    [("default", "Hello, {name}! {message}"); ("formal", "Dear {name}, {message}");
     ("friendly", "Hey {name}! {message}"); ("enthusiastic", "Hi {name}! {message} 🎉")].
Proof.
  unfold _templates. intros H. apply elem_of_list_to_map_2 in H.
  rewrite !elem_of_cons, elem_of_nil in H. rewrite !elem_of_cons.
  destruct H as [H|[H|[H|[H|[]]]]]; simplify_eq/=; auto.
Qed.

(** ** Strings *)

(** Appending reduces on a constructor again in the proofs below. *)
#[local] Arguments String.append !_ _ / : simpl nomatch.


Lemma string_prefix_spec (p s : string) :
  String.prefix p s = true ↔ ∃ rest, s = p ++ rest.
Proof.
  revert s. induction p as [|a p IH]; intros s; cbn.
  - destruct s; cbn; split; eauto.
  - destruct s as [|b s]; cbn.
    + split; [done|]. by intros [rest ?].
    + destruct (Ascii.ascii_dec a b) as [->|Hne].
      * rewrite IH. split; intros [rest Hrest]; exists rest; congruence.
      * split; [done|]. intros [rest ?]. congruence.
Qed.

(** [str_contains] decides the substring relation. *)
Lemma str_contains_spec (needle s : string) :
  str_contains needle s = true ↔ ∃ before after, s = before ++ needle ++ after.
Proof.
  induction s as [|c s IH].
  - change (str_contains needle "") with (String.prefix needle "" || false).
    rewrite orb_false_r, string_prefix_spec. split.
    + intros [rest ->]. by exists "", rest.
    + intros ([|? ?] & after & H); [by exists after|done].
  - change (str_contains needle (String c s))
      with (String.prefix needle (String c s) || str_contains needle s).
    rewrite orb_true_iff, IH, string_prefix_spec. split.
    + intros [[rest ->]|(before & after & ->)].
      * by exists "", rest.
      * by exists (String c before), after.
    + intros ([|c' before] & after & H).
      * left. by exists after.
      * right. exists before, after. cbn in H. congruence.
Qed.

(** ** The translation table *)

#[local] Arguments _TRANSLATIONS : simpl never.

Section translation_table.
Implicit Types (l : Language) (key : string) (v : PyVal).

Lemma as_str_hashable v (s : string) : as_str v = Some s → py_hashable v = true.
Proof. by destruct v. Qed.

(** A value whose text is a key of the table finds the record of that key. *)
Lemma get_translation_found v (s : string) (t : Translations) :
  as_str v = Some s → _TRANSLATIONS !! s = Some t → get_translation v = Return t.
Proof.
  intros Hs Ht. unfold get_translation, py_in, str_key_in.
  rewrite (as_str_hashable v s Hs), Hs. cbn.
  rewrite Ht, bool_decide_eq_true_2 by eauto. done.
Qed.

Lemma get_translation_absent v :
  py_hashable v = true → (∀ l, as_str v ≠ Some (Language_value l)) →
  get_translation v = Raise (ValueError ("Language " ++ py_str v ++ " is not supported")).
Proof.
  intros Hh Hv. unfold get_translation, py_in, str_key_in. rewrite Hh.
  destruct (as_str v) as [s|]; [|done]. cbn.
  rewrite translations_lookup_None.
  - rewrite bool_decide_eq_false_2; [done|]. by intros [? ?].
  - intros l ->. by destruct (Hv l).
Qed.

Lemma get_translation_unhashable v :
  py_hashable v = false →
  get_translation v = Raise (TypeError ("unhashable type: '" ++ py_class_name v ++ "'")).
Proof. intros Hh. unfold get_translation, py_in. by rewrite Hh. Qed.

Lemma get_translation_member l :
  ∃ t, get_translation (PyLanguage l) = Return t
       ∧ _TRANSLATIONS !! Language_value l = Some t.
Proof.
  destruct (translations_lookup_member l) as (t & Ht & _).
  exists t. split; [|done]. by apply (get_translation_found _ (Language_value l)).
Qed.

(** C5, as amended.  [get_translation] succeeds on each of the five
    languages, given as the member or as the text of its code, with the
    record of the table, whose [error_messages] has the keys [invalid_name],
    [invalid_template] and [invalid_language]; it fails with the
    [ValueError] of an unsupported language on every hashable argument that
    is none of them. *)
Theorem get_translation_closed_set :
  (∀ l v, as_str v = Some (Language_value l) →
     ∃ t, get_translation v = Return t
       ∧ _TRANSLATIONS !! Language_value l = Some t
       ∧ is_Some (error_messages t !! "invalid_name")
       ∧ is_Some (error_messages t !! "invalid_template")
       ∧ is_Some (error_messages t !! "invalid_language"))
  ∧ (∀ v, py_hashable v = true → (∀ l, as_str v ≠ Some (Language_value l)) →
       get_translation v
       = Raise (ValueError ("Language " ++ py_str v ++ " is not supported"))).
Proof.
  split.
  - intros l v Hv. destruct (translations_lookup_member l) as (t & Ht & Hdom).
    exists t. split; [by apply (get_translation_found v (Language_value l))|].
    split; [done|]. rewrite <-!elem_of_dom, Hdom. clear. set_solver.
  - apply get_translation_absent.
Qed.

Lemma get_translation_closed_set_witness :
  (∃ t, get_translation (PyLanguage ES) = Return t
     ∧ _TRANSLATIONS !! "es" = Some t
     ∧ is_Some (error_messages t !! "invalid_name")
     ∧ is_Some (error_messages t !! "invalid_template")
     ∧ is_Some (error_messages t !! "invalid_language"))
  ∧ get_translation (PyStr "invalid")
    = Raise (ValueError "Language invalid is not supported")
  ∧ get_translation (PyInt 7) = Raise (ValueError "Language 7 is not supported").
Proof.
  destruct get_translation_closed_set as [Hmember Hother].
  split; [apply (Hmember ES (PyLanguage ES)); reflexivity|].
  split; (apply Hother; [reflexivity|intros l; destruct l; discriminate]).
Defined.

(** C5, the claim as stated fails: a list is outside the five languages, and
    the membership test raises [TypeError] on it, not the [ValueError] of an
    unsupported language. *)
Lemma get_translation_unhashable_argument :
  get_translation (PyOther "list" "[]" false)
  = Raise (TypeError "unhashable type: 'list'")
  ∧ ¬ ∃ msg, get_translation (PyOther "list" "[]" false) = Raise (ValueError msg).
Proof. split; [reflexivity|]. intros [msg H]. vm_compute in H. discriminate. Qed.

(** What [translate_error] returns in a supported language, read off the
    record of the table. *)
Lemma translate_error_table l v key (t : Translations) :
  as_str v = Some (Language_value l) → _TRANSLATIONS !! Language_value l = Some t →
  translate_error key v = Return (default key (error_messages t !! key)).
Proof.
  intros Hv Ht. unfold translate_error.
  by rewrite (get_translation_found v (Language_value l) t Hv Ht).
Qed.

(** C8.  For every language, given as the member or as the text of its code,
    and every key, [translate_error] returns the message the record of that
    language in the table has for the key, and the key itself when the
    record has none; every key other than the three registered ones comes
    back unchanged. *)
Theorem translate_error_fallback :
  (∀ l v key, as_str v = Some (Language_value l) →
     ∃ t, _TRANSLATIONS !! Language_value l = Some t
       ∧ (∀ msg, error_messages t !! key = Some msg →
            translate_error key v = Return msg)
       ∧ (error_messages t !! key = None → translate_error key v = Return key))
  ∧ (∀ l v key, as_str v = Some (Language_value l) →
       key ≠ "invalid_name" → key ≠ "invalid_template" → key ≠ "invalid_language" →
       translate_error key v = Return key).
Proof.
  split.
  - intros l v key Hv. destruct (translations_lookup_member l) as (t & Ht & _).
    exists t. split; [done|]. rewrite (translate_error_table l v key t Hv Ht).
    split; [intros msg Hmsg|intros Hmsg]; by rewrite Hmsg.
  - intros l v key Hv H1 H2 H3.
    destruct (translations_lookup_member l) as (t & Ht & Hdom).
    rewrite (translate_error_table l v key t Hv Ht).
    assert (error_messages t !! key = None) as ->; [|done].
    apply not_elem_of_dom. rewrite Hdom. clear Ht Hdom. set_solver.
Qed.

Lemma translate_error_fallback_witness :
  translate_error "invalid_name" (PyLanguage EN) = Return "Name cannot be empty"
  ∧ translate_error "invalid_name" (PyStr "fr") = Return "Le nom ne peut pas être vide"
  ∧ translate_error "no_such_key" (PyLanguage JA) = Return "no_such_key".
Proof.
  destruct translate_error_fallback as [Hmsg Hkey]. split; [|split].
  - destruct (Hmsg EN (PyLanguage EN) "invalid_name" eq_refl) as (t & Ht & Hin & _).
    apply Hin. vm_compute in Ht. injection Ht as <-. reflexivity.
  - destruct (Hmsg FR (PyStr "fr") "invalid_name" eq_refl) as (t & Ht & Hin & _).
    apply Hin. vm_compute in Ht. injection Ht as <-. reflexivity.
  - apply (Hkey JA (PyLanguage JA) "no_such_key" eq_refl); discriminate.
Defined.
End translation_table.

(** ** The template registry *)

Section template_registry.
Implicit Types (name : string) (info : TemplateInfo) (c : TemplateCategory).

Lemma tags_intersect (X Y : gset string) : X ∩ Y ≠ ∅ ↔ ∃ t, t ∈ X ∧ t ∈ Y.
Proof.
  split.
  - intros H. apply set_choose_L in H. set_solver.
  - set_solver.
Qed.

(** C6.  [search_by_tags] returns exactly the registry entries whose tags
    share an element with the query; the empty query returns the empty
    mapping, and the query [{"business"}] returns a mapping with the key
    [formal]. *)
Theorem search_by_tags_intersection :
  (∀ (query : gset string) name info,
      search_by_tags query !! name = Some info
      ↔ _templates !! name = Some info ∧ ∃ t, t ∈ query ∧ t ∈ tags info)
  ∧ search_by_tags ∅ = ∅
  ∧ is_Some (search_by_tags {[ "business" ]} !! "formal").
Proof.
  assert (∀ (query : gset string) name info,
      search_by_tags query !! name = Some info
      ↔ _templates !! name = Some info ∧ ∃ t, t ∈ query ∧ t ∈ tags info) as Hchar.
  { intros query name info. unfold search_by_tags.
    rewrite map_lookup_filter_Some. cbn. by rewrite tags_intersect. }
  split; [exact Hchar|split].
  - apply map_eq. intros name. rewrite lookup_empty.
    destruct (search_by_tags ∅ !! name) as [info|] eqn:Hl; [|done].
    destruct (proj1 (Hchar _ _ _) Hl) as (_ & t & Ht & _).
    by apply not_elem_of_empty in Ht.
  - eexists. apply Hchar. split; [reflexivity|].
    exists "business". cbn. clear. set_solver.
Qed.

(** C7.  [get_by_category] fails, with the [ValueError] of an invalid
    category, exactly on the arguments that are no member of
    [TemplateCategory]; on a member it returns exactly the registry entries
    of that category. *)
Theorem get_by_category_members :
  (∀ v : PyVal, (∃ e, get_by_category v = Raise e) ↔ ∀ c, v ≠ PyCategory c)
  ∧ (∀ v e, get_by_category v = Raise e →
       e = ValueError ("Invalid category type: " ++ py_type_repr v))
  ∧ (∀ c, ∃ found, get_by_category (PyCategory c) = Return found
       ∧ ∀ name info, found !! name = Some info
                      ↔ _templates !! name = Some info ∧ category info = c).
Proof.
  split; [|split].
  - intros v. split.
    + intros [e He] c ->. discriminate.
    + intros Hv. destruct v; try (eexists; reflexivity). by destruct (Hv c).
  - intros v e. destruct v; cbn; intros H; by simplify_eq.
  - intros c. eexists. split; [reflexivity|]. intros name info.
    by rewrite map_lookup_filter_Some.
Qed.

Lemma get_by_category_members_witness :
  (∃ e, get_by_category (PyStr "formal") = Raise e)
  ∧ get_by_category (PyOther "object" "<object object>" true)
    = Raise (ValueError "Invalid category type: <class 'object'>").
Proof.
  destruct get_by_category_members as (Hfail & Herr & _). split.
  - apply Hfail. discriminate.
  - destruct (proj2 (Hfail (PyOther "object" "<object object>" true))) as [e He];
      [discriminate|].
    rewrite He. f_equal. apply (Herr _ _ He).
Defined.

(** C9.  Every registered template (the registry holds [default],
    [formal], [friendly] and [enthusiastic]) has a pattern that contains
    both [{name}] and [{message}]. *)
Theorem templates_have_placeholders :
  dom _templates = {[ "default"; "formal"; "friendly"; "enthusiastic" ]}
  ∧ ∀ name info, _templates !! name = Some info →
      str_contains "{name}" (pattern info) = true
      ∧ str_contains "{message}" (pattern info) = true.
Proof.
  split.
  - unfold _templates. cbn. rewrite !dom_insert_L, dom_empty_L. set_solver.
  - intros name info H. apply templates_entries in H.
    rewrite !elem_of_cons, elem_of_nil in H.
    destruct H as [H|[H|[H|[H|[]]]]]; injection H as _ ->; by vm_compute.
Qed.

Lemma templates_have_placeholders_witness :
  str_contains "{name}" "Hi {name}! {message} 🎉" = true
  ∧ str_contains "{message}" "Hi {name}! {message} 🎉" = true.
Proof.
  apply (proj2 templates_have_placeholders "enthusiastic"
           {| pattern := "Hi {name}! {message} 🎉"; category := FUNNY;
              tags := {[ "fun"; "emoji" ]};
              description := "An enthusiastic greeting with emoji" |}).
  reflexivity.
Defined.
End template_registry.

(** ** Validation *)

#[local] Arguments Language_of_string : simpl never.
#[local] Arguments LogLevel_members : simpl never.
#[local] Arguments list_templates : simpl never.

Section validation.
Implicit Types (config : gmap string PyVal) (r : ConfigRecord) (v : PyVal).

Lemma missing_or_not_in_hashable {V} config (a : string) (d : gmap string V) :
  (∀ v, config !! a = Some v → py_hashable v = true) →
  missing_or_not_in config a d
  = Return (match config !! a with
            | None => true
            | Some v => negb (str_key_in v d)
            end).
Proof.
  intros H. unfold missing_or_not_in, py_in.
  destruct (config !! a) as [v|]; [|done]. by rewrite (H v eq_refl).
Qed.

Lemma language_block config (errors : list string) :
  match config !! "language" with
  | None => Return (errors ++ₗ ["Language not specified"])
  | Some v =>
      match v with
      | PyLanguage _ => Return errors
      | _ =>
          match Language_call v with
          | Some _ => Return errors
          | None => Return (errors ++ₗ ["Invalid language: " ++ py_str v])
          end
      end
  end = Return (errors ++ₗ language_errors config).
Proof.
  unfold language_errors, Language_call.
  destruct (config !! "language") as [v|]; [|done].
  destruct v; cbn; rewrite ?app_nil_r; try done;
    match goal with
    | |- context [Language_of_string ?s] => destruct (Language_of_string s)
    end; cbn; by rewrite ?app_nil_r.
Qed.

(** When the two attributes that are looked up in a dictionary are
    hashable, [validate_config] returns what its three blocks append, in
    their order. *)
Lemma validate_config_blocks config :
  (∀ v, config !! "log_level" = Some v → py_hashable v = true) →
  (∀ v, config !! "template_style" = Some v → py_hashable v = true) →
  validate_config config
  = Return (log_level_errors config ++ₗ template_style_errors config
              ++ₗ language_errors config).
Proof.
  intros H1 H2. unfold validate_config.
  rewrite (missing_or_not_in_hashable _ _ _ H1),
    (missing_or_not_in_hashable _ _ _ H2). cbn.
  rewrite language_block. cbn. rewrite app_assoc. do 2 f_equal.
  unfold log_level_errors, template_style_errors, getattr.
  destruct (config !! "log_level") as [v1|],
    (config !! "template_style") as [v2|]; cbn;
    repeat match goal with |- context [str_key_in ?v ?d] => destruct (str_key_in v d) end;
    by cbn.
Qed.



End validation.

(** ** Configuration construction and persistence *)

Section configuration.
Implicit Types (r : ConfigRecord) (config : AppConfig) (field : string).

Lemma lookup_field_error {A} field (checked : option A) (msg : string) (k : string) :
  field_error field checked msg !! k
  = if decide (field = k)
    then match checked with Some _ => None | None => Some msg end
    else None.
Proof.
  unfold field_error. destruct checked.
  - rewrite lookup_empty. by case_decide.
  - case_decide as Hk; [subst; apply lookup_singleton_eq|by apply lookup_singleton_ne].
Qed.

Ltac solve_error_lookup :=
  unfold field_errors; rewrite !lookup_union, !lookup_field_error;
  repeat case_decide; try done.

Lemma field_errors_log_level r :
  field_errors r !! "log_level"
  = match check_log_level (rec_log_level r) with
    | Some _ => None
    | None => Some ("Invalid log level: " ++ py_str (rec_log_level r))
    end.
Proof. solve_error_lookup. by destruct (check_log_level _). Qed.

Lemma field_errors_template_style r :
  field_errors r !! "template_style"
  = match check_template_style (rec_template_style r) with
    | Some _ => None
    | None => Some ("Invalid template style: " ++ py_str (rec_template_style r))
    end.
Proof. solve_error_lookup. by destruct (check_template_style _). Qed.

Lemma field_errors_language r :
  field_errors r !! "language"
  = match check_language (rec_language r) with
    | Some _ => None
    | None => Some ("Invalid language: " ++ py_str (rec_language r))
    end.
Proof. solve_error_lookup. by destruct (check_language _). Qed.

Lemma field_errors_debug r :
  field_errors r !! "debug"
  = match check_debug (rec_debug r) with
    | Some _ => None
    | None => Some ("Invalid debug flag: " ++ py_str (rec_debug r))
    end.
Proof. solve_error_lookup. by destruct (check_debug _). Qed.

Lemma field_errors_custom_message r :
  field_errors r !! "custom_message"
  = match check_custom_message (rec_custom_message r) with
    | Some _ => None
    | None => Some ("Invalid custom message: " ++ py_str (rec_custom_message r))
    end.
Proof. solve_error_lookup. by destruct (check_custom_message _). Qed.


Lemma field_errors_nonempty r k : is_Some (field_errors r !! k) → field_errors r ≠ ∅.
Proof. intros [msg Hmsg] Hempty. by rewrite Hempty, lookup_empty in Hmsg. Qed.

Lemma AppConfig_init_cases r :
  (∃ config, AppConfig_init r = Return config ∧ field_errors r = ∅)
  ∨ (AppConfig_init r = Raise (ValidationError (field_errors r))
     ∧ field_errors r ≠ ∅).
Proof.
  pose proof (field_errors_debug r) as Hd.
  pose proof (field_errors_log_level r) as Hll.
  pose proof (field_errors_template_style r) as Hts.
  pose proof (field_errors_language r) as Hl.
  pose proof (field_errors_custom_message r) as Hcm.
  unfold AppConfig_init.
  destruct (check_debug _) as [d|] eqn:Ed;
    [|right; split; [done|]; apply (field_errors_nonempty r "debug"); by rewrite Hd].
  destruct (check_log_level _) as [ll|] eqn:Ell;
    [|right; split; [done|]; apply (field_errors_nonempty r "log_level"); by rewrite Hll].
  destruct (check_template_style _) as [ts|] eqn:Ets;
    [|right; split; [done|];
      apply (field_errors_nonempty r "template_style"); by rewrite Hts].
  destruct (check_language _) as [l|] eqn:El;
    [|right; split; [done|]; apply (field_errors_nonempty r "language"); by rewrite Hl].
  destruct (check_custom_message _) as [cm|] eqn:Ecm;
    [|right; split; [done|];
      apply (field_errors_nonempty r "custom_message"); by rewrite Hcm].
  left. eexists. split; [done|].
  unfold field_errors. rewrite Ed, Ell, Ets, El, Ecm. cbn.
  by rewrite !(left_id_L ∅ (∪)).
Qed.









(** ** Persistence *)

Lemma check_custom_message_saved (message : option string) :
  check_custom_message (from_option PyStr PyNone message) = Some message.
Proof. by destruct message. Qed.

Lemma check_template_style_registered (style : string) :
  is_Some (list_templates !! style) → check_template_style (PyStr style) = Some style.
Proof. intros H. unfold check_template_style. cbn. by rewrite bool_decide_eq_true_2. Qed.

Lemma check_template_style_Some (v : PyVal) (style : string) :
  check_template_style v = Some style → is_Some (list_templates !! style).
Proof.
  unfold check_template_style. destruct (as_str v) as [s|]; [|done]. cbn.
  case_bool_decide; [|done]. by intros [= <-].
Qed.

Lemma load_save config : valid_config config → load (save config) = Return config.
Proof.
  intros Hvalid. destruct config as [d ll ts l cm].
  unfold load, AppConfig_init, save, valid_config in *.
  cbn [rec_debug rec_log_level rec_template_style rec_language rec_custom_message
       debug log_level template_style language custom_message] in *.
  rewrite (check_template_style_registered ts Hvalid), check_custom_message_saved.
  unfold check_log_level, check_language, check_debug.
  cbn [as_str mbind option_bind].
  by rewrite LogLevel_members_name, Language_of_string_value.
Qed.

Lemma load_valid r config : load r = Return config → valid_config config.
Proof.
  unfold load, AppConfig_init, valid_config.
  destruct (check_debug (rec_debug r)), (check_log_level (rec_log_level r)),
    (check_template_style (rec_template_style r)) as [ts|] eqn:Ets,
    (check_language (rec_language r)),
    (check_custom_message (rec_custom_message r)); try done.
  intros [= <-]. cbn. by apply check_template_style_Some in Ets.
Qed.

(** C3.  Loading what was saved from a valid configuration gives a
    configuration with the same [debug], [custom_message], [template_style]
    and [language] (and [log_level]); loading is construction, so a record
    is loaded exactly when the mapping of the validation pass is empty and
    is rejected with that mapping otherwise, and what is loaded is valid. *)
Theorem save_load_round_trip :
  (∀ config, valid_config config →
     ∃ loaded, load (save config) = Return loaded
       ∧ debug loaded = debug config
       ∧ custom_message loaded = custom_message config
       ∧ template_style loaded = template_style config
       ∧ language loaded = language config
       ∧ log_level loaded = log_level config)
  ∧ (∀ r, load r = AppConfig_init r)
  ∧ (∀ r, (∃ config, load r = Return config ∧ field_errors r = ∅ ∧ valid_config config)
          ∨ (load r = Raise (ValidationError (field_errors r)) ∧ field_errors r ≠ ∅)).
Proof.
  split; [|split].
  - intros config Hvalid. exists config. by rewrite load_save.
  - done.
  - intros r. destruct (AppConfig_init_cases r) as [(config & Hc & He)|[Hr He]].
    + left. exists config. repeat split; [done..|]. by apply (load_valid r).
    + by right.
Qed.

(** The configuration of the repository's file-handling test. *)
Lemma save_load_round_trip_witness :
  let config := {| debug := true; log_level := INFO; template_style := "formal";
                   language := ES; custom_message := Some "Test message" |} in
  ∃ loaded, load (save config) = Return loaded
    ∧ debug loaded = true
    ∧ custom_message loaded = Some "Test message"
    ∧ template_style loaded = "formal"
    ∧ language loaded = ES
    ∧ log_level loaded = INFO.
Proof.
  intros config. apply (proj1 save_load_round_trip config).
  unfold valid_config. vm_compute. eexists. reflexivity.
Defined.
End configuration.

(** ** The renderer *)

Section renderer.
Implicit Types (name message : string) (config : AppConfig) (production : Production).

Lemma get_template_cases (style : string) :
  (∃ info, _templates !! style = Some info ∧ get_template style = Return (pattern info))
  ∨ (_templates !! style = None ∧ get_template style = Raise (KeyError style)).
Proof.
  unfold get_template, get_template_info.
  destruct (_templates !! style) as [info|]; [left; by exists info|by right].
Qed.

(** With a name that is not empty the renderer resolves the translation
    record, which exists for every language, and goes on to the template. *)
Lemma render_nonempty production name config :
  name ≠ "" →
  ∃ t, _TRANSLATIONS !! Language_value (language config) = Some t
    ∧ render production name config
      = (template ← get_template (template_style config);
         mret (produce production t template name
                 (default "" (custom_message config)))).
Proof.
  intros Hname. destruct (get_translation_member (language config)) as (t & Ht & Htable).
  exists t. split; [done|]. unfold render.
  rewrite bool_decide_eq_false_2 by done. by rewrite Ht.
Qed.


(** C4.  [render] fails with [EmptyNameError] exactly when the name is the
    empty string, whatever the configuration and the production; every other
    name, whitespace and symbols included, is accepted by a valid
    configuration. *)
Theorem render_rejects_only_the_empty_name :
  (∀ production name config,
      render production name config = Raise EmptyNameError ↔ name = "")
  ∧ (∀ production name config, name ≠ "" → valid_config config →
       ∃ greeting, render production name config = Return greeting).
Proof.
  split.
  - intros production name config. split.
    + intros Hr. destruct (decide (name = "")) as [|Hname]; [done|].
      destruct (render_nonempty production name config Hname) as (t & _ & Heq).
      rewrite Heq in Hr.
      destruct (get_template_cases (template_style config))
        as [(info & _ & Ht)|[_ Ht]]; rewrite Ht in Hr; discriminate.
    + intros ->. reflexivity.
  - intros production name config Hname [info Hinfo].
    destruct (render_nonempty production name config Hname) as (t & _ & ->).
    destruct (get_template_cases (template_style config))
      as [(info' & _ & ->)|[Hnone _]].
    + eexists. reflexivity.
    + unfold valid_config, list_templates in *. congruence.
Qed.

Lemma render_rejects_only_the_empty_name_witness :
  let config := {| debug := false; log_level := INFO; template_style := "default";
                   language := EN; custom_message := None |} in
  render Substitution "" config = Raise EmptyNameError
  ∧ render Composition "" config = Raise EmptyNameError
  ∧ (∃ greeting, render Substitution " " config = Return greeting)
  ∧ (∃ greeting, render Composition "🌟 星" config = Return greeting).
Proof.
  intros config. destruct render_rejects_only_the_empty_name as [Hempty Hother].
  split; [by apply Hempty|]. split; [by apply Hempty|].
  split; (apply Hother; [discriminate|vm_compute; eexists; reflexivity]).
Defined.


End renderer.

(** * Further properties of the sources *)

(** ** templates.py: lookups, categories and tags *)

Section registry_operations.
Implicit Types (name tag : string) (info : TemplateInfo) (c : TemplateCategory).
Implicit Types (query : gset string).

(** The four entries of the registry with their category and tags. *)
Lemma templates_cases name info :
  _templates !! name = Some info →
  (name = "default" ∧ category info = CASUAL ∧ tags info = {[ "simple"; "general" ]})
  ∨ (name = "formal" ∧ category info = FORMAL ∧ tags info = {[ "polite"; "business" ]})
  ∨ (name = "friendly" ∧ category info = CASUAL
     ∧ tags info = {[ "informal"; "friendly" ]})
  ∨ (name = "enthusiastic" ∧ category info = FUNNY ∧ tags info = {[ "fun"; "emoji" ]}).
Proof.
  unfold _templates. intros H. apply elem_of_list_to_map_2 in H.
  rewrite !elem_of_cons, elem_of_nil in H.
  destruct H as [H|[H|[H|[H|[]]]]]; injection H as -> ->; cbn; auto 10.
Qed.

Lemma templates_lookup_None name :
  name ∉ [ "default"; "formal"; "friendly"; "enthusiastic" ] → _templates !! name = None.
Proof. intros H. unfold _templates. by apply not_elem_of_list_to_map_1. Qed.

Lemma search_by_tags_lookup query name info :
  search_by_tags query !! name = Some info
  ↔ _templates !! name = Some info ∧ ∃ tag, tag ∈ query ∧ tag ∈ tags info.
Proof.
  unfold search_by_tags. rewrite map_lookup_filter_Some. cbn. by rewrite tags_intersect.
Qed.

(** X1.  [get_template_info] and [get_template] succeed on the four registered
    names, [get_template] with the pattern of the entry, and on every other
    name both raise the [KeyError] of that name. *)
Theorem get_template_registered_or_key_error name :
  (name ∈ [ "default"; "formal"; "friendly"; "enthusiastic" ] →
     ∃ info, _templates !! name = Some info
       ∧ get_template_info name = Return info
       ∧ get_template name = Return (pattern info))
  ∧ (name ∉ [ "default"; "formal"; "friendly"; "enthusiastic" ] →
     get_template_info name = Raise (KeyError name)
     ∧ get_template name = Raise (KeyError name)).
Proof.
  unfold get_template, get_template_info. split.
  - rewrite !elem_of_cons, elem_of_nil.
    intros [->|[->|[->|[->|[]]]]]; eexists; (split; [reflexivity|done]).
  - intros H. by rewrite (templates_lookup_None name H).
Qed.

Lemma get_template_registered_or_key_error_witness :
  (∃ info, _templates !! "friendly" = Some info
     ∧ get_template_info "friendly" = Return info
     ∧ get_template "friendly" = Return (pattern info))
  ∧ get_template_info "invalid" = Raise (KeyError "invalid")
  ∧ get_template "nonexistent" = Raise (KeyError "nonexistent").
Proof.
  split; [|split].
  - apply (proj1 (get_template_registered_or_key_error "friendly")).
    rewrite !elem_of_cons. auto.
  - apply (proj2 (get_template_registered_or_key_error "invalid")).
    rewrite !elem_of_cons, elem_of_nil. intros [|[|[|[|[]]]]]; discriminate.
  - apply (proj2 (get_template_registered_or_key_error "nonexistent")).
    rewrite !elem_of_cons, elem_of_nil. intros [|[|[|[|[]]]]]; discriminate.
Defined.

Lemma Return_inj {A} (a b : A) : Return a = Return b → a = b.
Proof. by intros [= ->]. Qed.

Lemma get_by_category_member c :
  get_by_category (PyCategory c)
  = Return (filter (λ item : string * TemplateInfo, category item.2 = c) _templates).
Proof. reflexivity. Qed.

Lemma get_by_category_lookup c name info :
  filter (λ item : string * TemplateInfo, category item.2 = c) _templates !! name
  = Some info
  ↔ _templates !! name = Some info ∧ category info = c.
Proof. by rewrite map_lookup_filter_Some. Qed.

(** X2.  The categories partition the registry: the result of a category is a
    part of the registry, the results of two different categories share no
    name, every registered template is in the result of its own category,
    and the category [BUSINESS], which no built-in template has, gives the
    empty mapping. *)
Theorem get_by_category_partition :
  (∀ c, ∃ found, get_by_category (PyCategory c) = Return found ∧ found ⊆ _templates)
  ∧ (∀ c1 c2 found1 found2,
       c1 ≠ c2 →
       get_by_category (PyCategory c1) = Return found1 →
       get_by_category (PyCategory c2) = Return found2 →
       found1 ##ₘ found2)
  ∧ (∀ name info,
       _templates !! name = Some info →
       ∃ found, get_by_category (PyCategory (category info)) = Return found
         ∧ found !! name = Some info)
  ∧ get_by_category (PyCategory BUSINESS) = Return ∅.
Proof.
  split; [|split; [|split]].
  - intros c. eexists. split; [apply get_by_category_member|].
    apply map_filter_subseteq.
  - intros c1 c2 found1 found2 Hne Hc1 Hc2.
    rewrite get_by_category_member in Hc1, Hc2.
    apply Return_inj in Hc1 as <-. apply Return_inj in Hc2 as <-.
    apply map_disjoint_spec. intros name info1 info2 H1 H2.
    apply get_by_category_lookup in H1 as [H1 <-].
    apply get_by_category_lookup in H2 as [H2 <-].
    rewrite H1 in H2. injection H2 as ->. done.
  - intros name info H. eexists. split; [apply get_by_category_member|].
    by apply get_by_category_lookup.
  - rewrite get_by_category_member. apply (f_equal Return).
    apply map_eq. intros name. rewrite lookup_empty.
    apply eq_None_not_Some. intros [info Hinfo].
    apply get_by_category_lookup in Hinfo as [Hinfo Hc].
    apply templates_cases in Hinfo as [H|[H|[H|H]]]; destruct H as (_ & Hc' & _);
      congruence.
Qed.

Lemma get_by_category_partition_witness :
  ∃ found, get_by_category (PyCategory FORMAL) = Return found
    ∧ is_Some (found !! "formal")
    ∧ found !! "friendly" = None.
Proof.
  destruct get_by_category_partition as (_ & Hdisj & Hown & _).
  destruct (Hown "formal"
              {| pattern := "Dear {name}, {message}"; category := FORMAL;
                 tags := {[ "polite"; "business" ]};
                 description := "A formal, professional greeting" |} eq_refl)
    as (found & Hfound & Hformal).
  exists found. split; [exact Hfound|]. split; [by eexists|].
  destruct (Hown "friendly"
              {| pattern := "Hey {name}! {message}"; category := CASUAL;
                 tags := {[ "informal"; "friendly" ]};
                 description := "A friendly, informal greeting" |} eq_refl)
    as (casual & Hcasual & Hfriendly).
  assert (found ##ₘ casual) as Hd.
  { apply (Hdisj FORMAL CASUAL); [discriminate|exact Hfound|exact Hcasual]. }
  apply (map_disjoint_Some_r _ _ _ _ Hd Hfriendly).
Defined.

(** X3.  [search_by_tags] never returns an entry that is not in the registry, it
    grows with the query, and the result for a union of queries is the union
    of the results. *)
Theorem search_by_tags_union :
  (∀ query, search_by_tags query ⊆ _templates)
  ∧ (∀ query1 query2,
       query1 ⊆ query2 → search_by_tags query1 ⊆ search_by_tags query2)
  ∧ (∀ query1 query2,
       search_by_tags (query1 ∪ query2)
       = search_by_tags query1 ∪ search_by_tags query2).
Proof.
  split; [|split].
  - intros query. unfold search_by_tags. apply map_filter_subseteq.
  - intros query1 query2 Hsub. apply map_subseteq_spec. intros name info.
    rewrite !search_by_tags_lookup. intros (Hinfo & tag & Hq & Ht).
    split; [done|]. exists tag. split; [by apply Hsub|done].
  - intros query1 query2. apply map_eq. intros name. apply option_eq. intros info.
    rewrite lookup_union_Some_raw, !search_by_tags_lookup.
    rewrite eq_None_not_Some. split.
    + intros (Hinfo & tag & Hq & Ht). apply elem_of_union in Hq.
      destruct (decide (∃ t, t ∈ query1 ∧ t ∈ tags info)) as [Hin|Hout].
      * left. done.
      * right. split.
        -- intros [info' Hinfo']. apply search_by_tags_lookup in Hinfo'.
           destruct Hinfo' as [Hinfo' Htag]. rewrite Hinfo in Hinfo'.
           injection Hinfo' as <-. done.
        -- split; [done|]. destruct Hq as [Hq|Hq]; [|by exists tag].
           destruct Hout. by exists tag.
    + intros [(Hinfo & tag & Hq & Ht)|(_ & Hinfo & tag & Hq & Ht)];
        (split; [done|]); exists tag; (split; [|done]); apply elem_of_union; auto.
Qed.

Lemma search_by_tags_union_witness :
  search_by_tags {[ "business" ]} ⊆ search_by_tags {[ "business"; "polite" ]}.
Proof.
  apply (proj1 (proj2 search_by_tags_union)).
  apply elem_of_subseteq. intros x Hx. apply elem_of_union. by left.
Defined.

(** X4.  A query finds nothing exactly when it holds none of the eight tags the
    built-in templates carry. *)
Theorem search_by_tags_empty_iff query :
  search_by_tags query = ∅
  ↔ ∀ tag, tag ∈ query →
      tag ∉ [ "simple"; "general"; "polite"; "business"; "informal"; "friendly";
              "fun"; "emoji" ].
Proof.
  split.
  - intros Hempty tag Hq Htag.
    assert (∃ name info, _templates !! name = Some info ∧ tag ∈ tags info)
      as (name & info & Hinfo & Ht).
    { rewrite !elem_of_cons, elem_of_nil in Htag.
      destruct Htag as [->|[->|[->|[->|[->|[->|[->|[->|[]]]]]]]]];
        [exists "default"|exists "default"|exists "formal"|exists "formal"
        |exists "friendly"|exists "friendly"|exists "enthusiastic"
        |exists "enthusiastic"];
        eexists; (split; [reflexivity|]); cbn;
        rewrite elem_of_union, !elem_of_singleton; auto. }
    assert (search_by_tags query !! name = Some info) as Hfound.
    { apply search_by_tags_lookup. split; [exact Hinfo|].
      exists tag. split; assumption. }
    rewrite Hempty, lookup_empty in Hfound. discriminate.
  - intros Hnone. apply map_eq. intros name. rewrite lookup_empty.
    apply eq_None_not_Some. intros [info Hinfo].
    apply search_by_tags_lookup in Hinfo as (Hinfo & tag & Hq & Ht).
    apply (Hnone tag Hq). rewrite !elem_of_cons.
    apply templates_cases in Hinfo as [H|[H|[H|H]]]; destruct H as (_ & _ & Htags);
      rewrite Htags, elem_of_union, !elem_of_singleton in Ht;
      destruct Ht as [->| ->]; auto 10.
Qed.

Lemma search_by_tags_empty_iff_witness :
  search_by_tags {[ "Business"; "urgent" ]} = ∅.
Proof.
  apply search_by_tags_empty_iff. intros tag.
  rewrite elem_of_union, !elem_of_singleton, !elem_of_cons, elem_of_nil.
  intros [->| ->] [|[|[|[|[|[|[|[|[]]]]]]]]]; discriminate.
Defined.

(** X5.  The tag sets of the built-in templates are pairwise disjoint: a query of
    a single tag finds at most one template. *)
Theorem search_by_single_tag_unique tag name1 name2 info1 info2 :
  search_by_tags {[ tag ]} !! name1 = Some info1 →
  search_by_tags {[ tag ]} !! name2 = Some info2 →
  name1 = name2.
Proof.
  rewrite !search_by_tags_lookup.
  intros (H1 & t1 & Hq1 & Ht1) (H2 & t2 & Hq2 & Ht2).
  apply elem_of_singleton in Hq1 as ->. apply elem_of_singleton in Hq2 as ->.
  apply templates_cases in H1 as [H1|[H1|[H1|H1]]]; destruct H1 as (-> & _ & Htags1);
    rewrite Htags1, elem_of_union, !elem_of_singleton in Ht1;
    apply templates_cases in H2 as [H2|[H2|[H2|H2]]];
    destruct H2 as (-> & _ & Htags2);
    rewrite Htags2, elem_of_union, !elem_of_singleton in Ht2;
    try done; destruct Ht1 as [->| ->]; destruct Ht2 as [|]; discriminate.
Qed.

Lemma search_by_single_tag_unique_witness :
  search_by_tags {[ "polite" ]} !! "default" = None.
Proof.
  destruct (search_by_tags {[ "polite" ]} !! "default") as [info|] eqn:Hfound;
    [exfalso|reflexivity].
  assert ("default" = "formal") as Heq; [|discriminate Heq].
  apply (search_by_single_tag_unique "polite" "default" "formal" info
           {| pattern := "Dear {name}, {message}"; category := FORMAL;
              tags := {[ "polite"; "business" ]};
              description := "A formal, professional greeting" |} Hfound).
  apply search_by_tags_lookup. split; [reflexivity|].
  exists "polite". cbn. rewrite elem_of_union, !elem_of_singleton. auto.
Defined.
End registry_operations.

(** ** i18n.py: the table and the fallback *)

Section translation_operations.
Implicit Types (l : Language) (key msg : string) (v : PyVal).

Lemma translate_error_unknown l v key :
  as_str v = Some (Language_value l) →
  key ∉ [ "invalid_name"; "invalid_template"; "invalid_language" ] →
  translate_error key v = Return key.
Proof.
  intros Hv Hkey. destruct (translations_lookup_member l) as (t & Ht & Hdom).
  rewrite (translate_error_table l v key t Hv Ht).
  assert (error_messages t !! key = None) as ->; [|done].
  apply not_elem_of_dom. rewrite Hdom. clear Ht Hdom.
  rewrite !elem_of_cons, elem_of_nil in Hkey.
  rewrite !elem_of_union, !elem_of_singleton. tauto.
Qed.

Lemma translate_error_known l v key :
  as_str v = Some (Language_value l) →
  key ∈ [ "invalid_name"; "invalid_template"; "invalid_language" ] →
  ∃ msg, translate_error key v = Return msg
    ∧ msg ≠ key
    ∧ msg ∉ [ "invalid_name"; "invalid_template"; "invalid_language" ].
Proof.
  intros Hv Hin. destruct (translations_lookup_member l) as (t & Ht & _).
  exists (default key (error_messages t !! key)).
  split; [by apply (translate_error_table l)|]. clear Hv.
  rewrite !elem_of_cons, elem_of_nil in Hin.
  revert Ht. destruct l; intros [= <-];
    destruct Hin as [->|[->|[->|[]]]];
    (split; [vm_compute; discriminate|]);
    rewrite !elem_of_cons, elem_of_nil; intros [H|[H|[H|[]]]];
    vm_compute in H; discriminate.
Qed.

(** X6.  Every language, given as the member or as the text of its code,
    supplies exactly the same three error keys, and a greeting prefix and
    suffix that are not empty. *)
Theorem translations_uniform l v :
  as_str v = Some (Language_value l) →
  ∃ t, get_translation v = Return t
    ∧ dom (error_messages t)
      = {[ "invalid_name"; "invalid_template"; "invalid_language" ]}
    ∧ greeting_prefix t ≠ ""
    ∧ greeting_suffix t ≠ "".
Proof.
  intros Hv. destruct (translations_lookup_member l) as (t & Ht & Hdom).
  exists t. split; [by apply (get_translation_found v (Language_value l))|].
  split; [done|].
  revert Ht. clear. destruct l; intros [= <-]; by split.
Qed.

Lemma translations_uniform_witness :
  ∃ t, get_translation (PyStr "ja") = Return t
    ∧ dom (error_messages t)
      = {[ "invalid_name"; "invalid_template"; "invalid_language" ]}
    ∧ greeting_prefix t ≠ ""
    ∧ greeting_suffix t ≠ "".
Proof. apply (translations_uniform JA (PyStr "ja")). reflexivity. Defined.

(** X7.  The fallback of [translate_error] covers an unknown key only: for a
    hashable language that is not supported the [ValueError] of
    [get_translation] comes out, whatever the key. *)
Theorem translate_error_unsupported_language key v :
  py_hashable v = true → (∀ l, as_str v ≠ Some (Language_value l)) →
  translate_error key v
  = Raise (ValueError ("Language " ++ py_str v ++ " is not supported")).
Proof.
  intros Hh Hv. unfold translate_error.
  by rewrite (get_translation_absent v Hh Hv).
Qed.

Lemma translate_error_unsupported_language_witness :
  translate_error "invalid_name" (PyStr "it")
  = Raise (ValueError "Language it is not supported").
Proof.
  apply (translate_error_unsupported_language "invalid_name" (PyStr "it"));
    [reflexivity|].
  intros l; destruct l; discriminate.
Defined.

(** X8.  In a supported language [translate_error] gives the key back unchanged
    exactly for the keys other than the three registered ones: each
    registered key has a message that differs from it. *)
Theorem translate_error_returns_key_iff l v key :
  as_str v = Some (Language_value l) →
  translate_error key v = Return key
  ↔ key ∉ [ "invalid_name"; "invalid_template"; "invalid_language" ].
Proof.
  intros Hv. split.
  - intros Hkey Hin.
    destruct (translate_error_known l v key Hv Hin) as (msg & Hmsg & Hne & _).
    rewrite Hmsg in Hkey. apply Return_inj in Hkey. done.
  - by apply (translate_error_unknown l).
Qed.

Lemma translate_error_returns_key_iff_witness :
  translate_error "invalid name" (PyLanguage DE) = Return "invalid name"
  ∧ translate_error "invalid_name" (PyLanguage DE) ≠ Return "invalid_name".
Proof.
  split.
  - apply (translate_error_returns_key_iff DE (PyLanguage DE)); [reflexivity|].
    rewrite !elem_of_cons, elem_of_nil. intros [|[|[|[]]]]; discriminate.
  - intros H.
    apply (translate_error_returns_key_iff DE (PyLanguage DE)) in H; [|reflexivity].
    apply H. rewrite !elem_of_cons. auto.
Defined.

(** X9.  Translating a translated message changes nothing: no message of the
    table is itself a key. *)
Theorem translate_error_idempotent l v key msg :
  as_str v = Some (Language_value l) →
  translate_error key v = Return msg →
  translate_error msg v = Return msg.
Proof.
  intros Hv Hmsg.
  destruct (decide (key ∈ [ "invalid_name"; "invalid_template"; "invalid_language" ]))
    as [Hin|Hout].
  - destruct (translate_error_known l v key Hv Hin) as (msg' & Hmsg' & _ & Hnot).
    rewrite Hmsg' in Hmsg. apply Return_inj in Hmsg as <-.
    by apply (translate_error_unknown l).
  - rewrite (translate_error_unknown l v key Hv Hout) in Hmsg.
    apply Return_inj in Hmsg as <-. by apply (translate_error_unknown l).
Qed.

Lemma translate_error_idempotent_witness :
  translate_error "Nicht unterstützte Sprache" (PyStr "de")
  = Return "Nicht unterstützte Sprache".
Proof.
  apply (translate_error_idempotent DE (PyStr "de") "invalid_language");
    reflexivity.
Defined.
End translation_operations.

(** ** validation.py: when [validate_config] accepts, reports and raises *)

Section validation_operations.
Implicit Types (config : gmap string PyVal) (v : PyVal).

Lemma LogLevel_members_Some (s : string) (l : LogLevel) :
  LogLevel_members !! s = Some l → s = LogLevel_name l.
Proof.
  unfold LogLevel_members. intros H. apply elem_of_list_to_map_2 in H. cbn in H.
  rewrite !elem_of_cons, elem_of_nil in H.
  destruct H as [H|[H|[H|[H|[H|[]]]]]]; by injection H as -> ->.
Qed.

Lemma validate_config_raise_log_level config v :
  config !! "log_level" = Some v → py_hashable v = false →
  validate_config config
  = Raise (TypeError ("unhashable type: '" ++ py_class_name v ++ "'")).
Proof.
  intros Hv Hh. unfold validate_config, missing_or_not_in, py_in.
  by rewrite Hv, Hh.
Qed.

Lemma validate_config_raise_template_style config v :
  (∀ v1, config !! "log_level" = Some v1 → py_hashable v1 = true) →
  config !! "template_style" = Some v → py_hashable v = false →
  validate_config config
  = Raise (TypeError ("unhashable type: '" ++ py_class_name v ++ "'")).
Proof.
  intros H1 Hv Hh. unfold validate_config.
  rewrite (missing_or_not_in_hashable _ _ _ H1).
  unfold missing_or_not_in, py_in. by rewrite Hv, Hh.
Qed.

(** Whether the two attributes that are hashed can be hashed. *)
Lemma hashable_cases config (a : string) :
  (∀ v, config !! a = Some v → py_hashable v = true)
  ∨ (∃ v, config !! a = Some v ∧ py_hashable v = false).
Proof.
  destruct (config !! a) as [v|]; [|by left].
  destruct (py_hashable v) eqn:Hh; [left; by intros ? [= <-]|right; by exists v].
Qed.

Lemma log_level_errors_nil config :
  log_level_errors config = []
  ↔ ∃ v l, config !! "log_level" = Some v ∧ as_str v = Some (LogLevel_name l).
Proof.
  unfold log_level_errors, str_key_in. split.
  - destruct (config !! "log_level") as [v|]; [|done].
    destruct (as_str v) as [s|] eqn:Hs; [|done]. case_bool_decide as Hin; [|done].
    intros _. destruct Hin as [l Hl]. exists v, l.
    by rewrite Hs, (LogLevel_members_Some s l Hl).
  - intros (v & l & -> & ->). rewrite bool_decide_eq_true_2; [done|].
    rewrite LogLevel_members_name. by eexists.
Qed.

Lemma template_style_errors_nil config :
  template_style_errors config = []
  ↔ ∃ v s, config !! "template_style" = Some v ∧ as_str v = Some s
           ∧ is_Some (_templates !! s).
Proof.
  unfold template_style_errors, str_key_in, list_templates. split.
  - destruct (config !! "template_style") as [v|]; [|done].
    destruct (as_str v) as [s|] eqn:Hs; [|done]. case_bool_decide as Hin; [|done].
    intros _. by exists v, s.
  - intros (v & s & -> & -> & Hin). by rewrite bool_decide_eq_true_2.
Qed.

Lemma language_errors_nil config :
  language_errors config = []
  ↔ ∃ v l, config !! "language" = Some v ∧ as_str v = Some (Language_value l).
Proof.
  unfold language_errors. split.
  - destruct (config !! "language") as [v|]; [|done]. intros H.
    assert (∃ l, as_str v = Some (Language_value l)) as [l Hl]; [|by exists v, l].
    destruct v as [| | |s|l|ll| |]; cbn in H |- *; try done.
    + destruct (Language_of_string s) as [l|] eqn:E; [|done].
      exists l. f_equal. by apply Language_of_string_Some.
    + by exists l.
    + destruct (Language_of_string (LogLevel_name ll)) as [l|] eqn:E; [|done].
      exists l. f_equal. by apply Language_of_string_Some.
  - intros (v & l & -> & Hv). destruct v; try done; cbn in *;
      injection Hv as ->; by rewrite Language_of_string_value.
Qed.

(** X10.  [validate_config] returns the empty list exactly for an object that has
    all three attributes with a text naming a log level, a text naming a
    registered template, and a [Language] member or the text of its code. *)
Theorem validate_config_accepts_iff config :
  validate_config config = Return []
  ↔ (∃ v l, config !! "log_level" = Some v ∧ as_str v = Some (LogLevel_name l))
    ∧ (∃ v s, config !! "template_style" = Some v ∧ as_str v = Some s
              ∧ is_Some (_templates !! s))
    ∧ (∃ v l, config !! "language" = Some v ∧ as_str v = Some (Language_value l)).
Proof.
  rewrite <-log_level_errors_nil, <-template_style_errors_nil, <-language_errors_nil.
  split.
  - intros H.
    destruct (hashable_cases config "log_level") as [H1|(v & Hv & Hh)];
      [|by rewrite (validate_config_raise_log_level config v Hv Hh) in H].
    destruct (hashable_cases config "template_style") as [H2|(v & Hv & Hh)];
      [|by rewrite (validate_config_raise_template_style config v H1 Hv Hh) in H].
    rewrite (validate_config_blocks config H1 H2) in H. apply Return_inj in H.
    apply app_eq_nil in H as [? H]. by apply app_eq_nil in H as [? ?].
  - intros (Hl & Ht & Hg). rewrite validate_config_blocks.
    + by rewrite Hl, Ht, Hg.
    + apply log_level_errors_nil in Hl as (v & l & Hv & Hs).
      intros v' Hv'. rewrite Hv in Hv'. injection Hv' as <-.
      by destruct v.
    + apply template_style_errors_nil in Ht as (v & s & Hv & Hs & _).
      intros v' Hv'. rewrite Hv in Hv'. injection Hv' as <-.
      by destruct v.
Qed.

Lemma validate_config_accepts_iff_witness :
  validate_config {[ "log_level" := PyLogLevel DEBUG; "template_style" := PyStr "friendly";
                     "language" := PyLanguage JA ]}
  = Return [].
Proof.
  apply validate_config_accepts_iff. split; [|split].
  - by exists (PyLogLevel DEBUG), DEBUG.
  - exists (PyStr "friendly"), "friendly". split; [done|]. split; [done|]. by eexists.
  - by exists (PyLanguage JA), JA.
Defined.



(** X13.  A [log_level] or [template_style] that is [None] is reported exactly as a
    missing one ([getattr] defaults to [None]); for [language] the two
    differ: a missing one is reported as not specified, [None] as invalid. *)
Theorem validate_config_none_or_missing config :
  validate_config (<["log_level" := PyNone]> config)
  = validate_config (delete "log_level" config)
  ∧ validate_config (<["template_style" := PyNone]> config)
    = validate_config (delete "template_style" config)
  ∧ ∀ errors,
      validate_config (delete "language" config) = Return errors →
      ∃ others,
        errors = others ++ₗ ["Language not specified"]
        ∧ validate_config (<["language" := PyNone]> config)
          = Return (others ++ₗ ["Invalid language: None"]).
Proof.
  split; [|split].
  - unfold validate_config, missing_or_not_in, getattr.
    rewrite lookup_insert_eq, lookup_delete_eq.
    by rewrite !lookup_insert_ne, !lookup_delete_ne by done.
  - unfold validate_config, missing_or_not_in, getattr.
    rewrite lookup_insert_eq, lookup_delete_eq.
    by rewrite !lookup_insert_ne, !lookup_delete_ne by done.
  - intros errors H.
    assert (∀ a, a ≠ "language" →
              delete "language" config !! a = config !! a
              ∧ <["language" := PyNone]> config !! a = config !! a) as Hframe.
    { intros a Ha. by rewrite lookup_delete_ne, lookup_insert_ne by done. }
    destruct (Hframe "log_level") as [Dl Il]; [done|].
    destruct (Hframe "template_style") as [Dt It]; [done|].
    destruct (hashable_cases config "log_level") as [H1|(v & Hv & Hh)];
      [|rewrite <-Dl in Hv;
        by rewrite (validate_config_raise_log_level _ v Hv Hh) in H].
    destruct (hashable_cases config "template_style") as [H2|(v & Hv & Hh)];
      [|rewrite <-Dt in Hv; rewrite <-Dl in H1;
        by rewrite (validate_config_raise_template_style _ v H1 Hv Hh) in H].
    rewrite validate_config_blocks in H by (by rewrite ?Dl, ?Dt).
    rewrite validate_config_blocks by (by rewrite ?Il, ?It).
    apply Return_inj in H as <-.
    exists (log_level_errors config ++ₗ template_style_errors config).
    unfold log_level_errors, template_style_errors, language_errors.
    rewrite Dl, Dt, Il, It, lookup_delete_eq, lookup_insert_eq.
    by rewrite <-!app_assoc.
Qed.

Lemma validate_config_none_or_missing_witness :
  validate_config {[ "log_level" := PyStr "INFO"; "template_style" := PyStr "formal";
                     "language" := PyNone ]}
  = Return ["Invalid language: None"].
Proof.
  destruct (validate_config_none_or_missing
              {[ "log_level" := PyStr "INFO"; "template_style" := PyStr "formal" ]})
    as (_ & _ & Hlang).
  destruct (Hlang ["Language not specified"] eq_refl) as (others & Hothers & Hnone).
  destruct others as [|x others]; [exact Hnone|].
  destruct others; discriminate.
Defined.

(** ** i18n.py: the enumeration of languages *)

(** X14.  Calling [Language] on the code of a member, or on the member, gives the
    member back; the five codes are different from one another; and every
    value that is not one of these texts is refused (the [ValueError] of the
    enumeration, which [Language_call] reports as no member). *)
Theorem Language_call_round_trip :
  (∀ l, Language_call (PyStr (Language_value l)) = Some l
        ∧ Language_call (PyLanguage l) = Some l)
  ∧ (∀ l1 l2, Language_value l1 = Language_value l2 → l1 = l2)
  ∧ (∀ v, (∀ l, as_str v ≠ Some (Language_value l)) → Language_call v = None).
Proof.
  split; [|split].
  - intros l. unfold Language_call. cbn. by rewrite Language_of_string_value.
  - intros l1 l2 H.
    assert (Language_of_string (Language_value l1) = Some l2) as Hl
      by (rewrite H; apply Language_of_string_value).
    rewrite Language_of_string_value in Hl. by injection Hl.
  - intros v Hv. unfold Language_call.
    destruct (as_str v) as [s|] eqn:Hs; [|done]. cbn.
    destruct (Language_of_string s) as [l|] eqn:Hl; [|done].
    destruct (Hv l). f_equal. by apply Language_of_string_Some.
Qed.

Lemma Language_call_round_trip_witness :
  Language_call (PyStr "invalid") = None
  ∧ Language_call (PyStr "EN") = None
  ∧ Language_call (PyOther "list" "['en']" false) = None.
Proof.
  destruct Language_call_round_trip as (_ & _ & Hrefused).
  repeat split; (apply Hrefused; intros l; destruct l; discriminate).
Defined.
End validation_operations.
